(** * gdbt command line: [version], [plan] and [apply]

    A shallow embedding of [src/gdbt/cli.py].  The three click commands are
    sequential programs that call into the reconciliation core
    ([gdbt.stencil.load], [gdbt.state.state], [gdbt.state.diff],
    [gdbt.state.plan]), print to the console, optionally prompt the user and
    turn domain errors into exit status 1.

    The core modules are imported by [cli.py] but are not part of it: they are
    taken as an interface ([Core]) whose operations either return a value or
    raise a [gdbt.errors.Error].  Every call the command makes, together with
    its arguments and its result, is recorded in a chronological trace, so
    that statements about what a command did (or did not do) are statements
    about its trace. *)

From Stdlib Require Import ZArith List Lia.
From stdpp Require Import base option list strings gmap.

Local Open Scope string_scope.
Local Open Scope list_scope.

(** ** Domain errors ([gdbt.errors]) *)

Module Errors.

(** Modelled from the spec: [gdbt.errors] is imported by [cli.py] but not
    defined there; the taxonomy is the one of section 7.  [cli.py] itself
    only uses the base class [gdbt.errors.Error] and its [message]. *)
Inductive kind : Set :=
| ConfigError
| ResolutionError
| ProviderError
| StateError
| ConfirmationDeclined.

Record Error : Set := mkError { error_kind : kind; message : string }.

End Errors.

Abbreviation Error := Errors.Error.

(** ** Exceptions and results *)

(** What can propagate out of a statement of [cli.py]: a domain error, the
    [click.Abort] raised by [click.confirm(..., abort=True)] when the user
    declines, and the [SystemExit] raised by the [except] handlers. *)
Inductive exn : Set :=
| GdbtError (exc : Error)
| Abort
| SystemExit (code : Z).

Inductive result (A : Type) : Type :=
| Ok (a : A)
| Raise (e : exn).
Arguments Ok {A} a.
Arguments Raise {A} e.

(** A call into the core returns or raises a [gdbt.errors.Error]. *)
Definition of_call {A} (r : Error + A) : result A :=
  match r with
  | inl exc => Raise (GdbtError exc)
  | inr a => Ok a
  end.
Arguments of_call {A} !r /.

(** ** Python dictionaries *)

Section Dict.
Context {K : Type} `{Countable K} {V : Type}.

(** [d.update(other)]: every key of [other] is (re)bound in [d]; a key that
    was already present is overwritten. *)
Definition dict_update (d other : gmap K V) : gmap K V := other ∪ d.

(** [len(d.values())] *)
Definition len_values (d : gmap K V) : nat := size d.

End Dict.

(** ** The interface of the core, as [cli.py] uses it *)

(** [config.providers], [config.evaluations], [config.lookups] and
    [config.state] are the only attributes of the configuration object that
    [cli.py] reads. *)
Record Config (Providers Evaluations Lookups StateConfig : Type) : Type :=
  mkConfig {
    providers : Providers;
    evaluations : Evaluations;
    lookups : Lookups;
    state : StateConfig;
  }.
Arguments mkConfig {_ _ _ _} _ _ _ _.
Arguments providers {_ _ _ _} _.
Arguments evaluations {_ _ _ _} _.
Arguments lookups {_ _ _ _} _.
Arguments state {_ _ _ _} _.

(** Modelled from the spec: the resource-provider interface
    ([gdbt.provider.provider]) is not part of [cli.py].  Section 4.2:
    [create(resource)], [update(from, to)] and [delete(resource)] are the
    only points where the system mutates a backend.  They are performed
    inside [Plan.apply], never by [cli.py] directly. *)
Inductive ProviderOp (Resource : Type) : Type :=
| OpCreate (resource : Resource)
| OpUpdate (from to : Resource)
| OpDelete (resource : Resource).
Arguments OpCreate {_} _.
Arguments OpUpdate {_} _ _.
Arguments OpDelete {_} _.

(** Everything [cli.py] imports and calls.  The objects it only passes along
    are abstract types; each function is the partial function the module
    implements: [inl exc] stands for raising [exc].  [Plan_apply] also yields
    the resource-provider operations it performed before returning or
    raising.  [click_confirm] is the answer the user gives to a prompt and
    [time_time n] the reading of the [n]-th call of [time.time()], in
    whole units of the clock (the float arithmetic of Python is not
    modelled). *)
Class Core : Type := {
  Providers : Type;
  Evaluations : Type;
  Lookups : Type;
  StateConfig : Type;
  Stencil : Type;
  ResourceID : Type;
  Resource : Type;
  State : Type;
  Outcome : Type;
  StateDiff : Type;
  Plan : Type;
  Rendering : Type;
  ResourceID_eq_dec :: EqDecision ResourceID;
  ResourceID_countable :: Countable ResourceID;

  gdbt_version : string;
  gdbt_load_config :
    string → Error + Config Providers Evaluations Lookups StateConfig;
  gdbt_load_resources : string → Error + list (string * Stencil);
  Stencil_resolve :
    Stencil → string → Providers → Evaluations → Lookups →
    Error + gmap ResourceID Resource;
  gdbt_State : gmap ResourceID Resource → Error + State;
  gdbt_state_load : StateConfig → Providers → Error + State;
  gdbt_StateDiff : State → State → Error + StateDiff;
  StateDiff_outcomes : StateDiff → Providers → Error + gmap ResourceID Outcome;
  StateDiff_render : StateDiff → Providers → Error + Rendering;
  gdbt_Plan : StateDiff → Error + Plan;
  Plan_apply : Plan → Providers → list (ProviderOp Resource) * (Error + State);
  gdbt_state_push : StateConfig → Providers → State → Error + unit;
  click_confirm : string → bool;
  time_time : nat → Z;
}.

Section Cli.
Context `{core : Core}.

Abbreviation Cfg := (Config Providers Evaluations Lookups StateConfig).

(** *** Observable events *)

(** What [console.print] is given.  The closing report of [apply] is an
    f-string over [changes] and [duration] ([{duration:.2f}]); it is kept
    structured. *)
Inductive message : Type :=
| Text (s : string)
| Rendered (r : Rendering)
| Done (changes : nat) (duration : Z).

Inductive spinner_event : Set :=
| SpinStart (text : string)
| SpinText (text : string)
| SpinSucceed (text : string)
| SpinStop.

Inductive event : Type :=
| Print (m : message)
| Spinner (s : spinner_event)
| LoadConfig (config_dir : string) (r : Error + Cfg)
| LoadResources (config_dir : string) (r : Error + list (string * Stencil))
| Resolve (value : Stencil) (key : string) (ps : Providers)
          (evals : Evaluations) (lks : Lookups)
          (r : Error + gmap ResourceID Resource)
| NewState (resources : gmap ResourceID Resource) (r : Error + State)
| LoadState (st : StateConfig) (ps : Providers) (r : Error + State)
| NewStateDiff (current desired : State) (r : Error + StateDiff)
| Outcomes (diff : StateDiff) (ps : Providers)
           (r : Error + gmap ResourceID Outcome)
| Render (diff : StateDiff) (ps : Providers) (r : Error + Rendering)
| Confirm (text : string) (answer : bool)
| Time (t : Z)
| NewPlan (diff : StateDiff) (r : Error + Plan)
| PlanApplyBegin (p : Plan) (ps : Providers)
| ProviderCall (op : ProviderOp Resource)
| PlanApplyEnd (r : Error + State)
| PushState (st : StateConfig) (ps : Providers) (applied : State)
            (r : Error + unit)
| Stderr (s : string).

Definition trace : Type := list event.

(** *** The command monad: exceptions over the state of the run *)

(** What a run has done so far: the events, oldest first, and how many
    times the clock has been read. *)
Record run_state : Type := mkRun { log : trace; clock_reads : nat }.

Definition M (A : Type) : Type := run_state → result A * run_state.

Definition ret {A} (a : A) : M A := fun s => (Ok a, s).

Definition bind {A B} (m : M A) (f : A → M B) : M B :=
  fun s =>
    match m s with
    | (Ok a, s') => f a s'
    | (Raise e, s') => (Raise e, s')
    end.

Definition record (es : trace) (s : run_state) : run_state :=
  mkRun (log s ++ es) (clock_reads s).

#[global] Instance M_ret : MRet M := @ret.
#[global] Instance M_bind : MBind M := fun A B f m => bind m f.

Definition raise {A} (e : exn) : M A := fun s => (Raise e, s).

Definition emit (e : event) : M unit := fun s => (Ok tt, record [e] s).

(** A call into the core, logged with its result. *)
Definition invoke {A} (log : Error + A → event) (r : Error + A) : M A :=
  fun s => (of_call r, record [log r] s).

(** [try: body except gdbt.errors.Error as exc: handler exc] *)
Definition try_except {A} (body : M A) (handler : Error → M A) : M A :=
  fun s =>
    match body s with
    | (Raise (GdbtError exc), s') => handler exc s'
    | other => other
    end.

(** [with halo.Halo(text=..., spinner="dots") as spinner: body]: the
    spinner is started on entry and stopped on exit, whether [body]
    returns or raises. *)
Definition with_Halo {A} (text : string) (body : M A) : M A :=
  fun s =>
    match body (record [Spinner (SpinStart text)] s) with
    | (r, s') => (r, record [Spinner SpinStop] s')
    end.

(** *** Statements of [cli.py] *)

Definition console_print (m : message) : M unit := emit (Print m).

(** [spinner.text = text] *)
Definition spinner_text (text : string) : M unit :=
  emit (Spinner (SpinText text)).

(** [spinner.succeed(text)] *)
Definition spinner_succeed (text : string) : M unit :=
  emit (Spinner (SpinSucceed text)).

Definition load_config (config_dir : string) : M Cfg :=
  invoke (LoadConfig config_dir) (gdbt_load_config config_dir).

Definition load_resources (config_dir : string)
  : M (list (string * Stencil)) :=
  invoke (LoadResources config_dir) (gdbt_load_resources config_dir).

Definition resolve (value : Stencil) (key : string) (ps : Providers)
    (evals : Evaluations) (lks : Lookups) : M (gmap ResourceID Resource) :=
  invoke (Resolve value key ps evals lks)
         (Stencil_resolve value key ps evals lks).

Definition new_State (resources : gmap ResourceID Resource) : M State :=
  invoke (NewState resources) (gdbt_State resources).

Definition load (st : StateConfig) (ps : Providers) : M State :=
  invoke (LoadState st ps) (gdbt_state_load st ps).

Definition new_StateDiff (current desired : State) : M StateDiff :=
  invoke (NewStateDiff current desired) (gdbt_StateDiff current desired).

Definition outcomes (diff : StateDiff) (ps : Providers)
  : M (gmap ResourceID Outcome) :=
  invoke (Outcomes diff ps) (StateDiff_outcomes diff ps).

Definition render (diff : StateDiff) (ps : Providers) : M Rendering :=
  invoke (Render diff ps) (StateDiff_render diff ps).

Definition new_Plan (diff : StateDiff) : M Plan :=
  invoke (NewPlan diff) (gdbt_Plan diff).

(** [plan.apply(providers)]: the call, the provider operations performed
    during it, and its return or raise. *)
Definition plan_apply (p : Plan) (ps : Providers) : M State :=
  fun s =>
    let (ops, r) := Plan_apply p ps in
    (of_call r,
     record ([PlanApplyBegin p ps] ++ map ProviderCall ops ++ [PlanApplyEnd r])
            s).

Definition push (st : StateConfig) (ps : Providers) (applied : State)
  : M unit :=
  invoke (PushState st ps applied) (gdbt_state_push st ps applied).

(** [click.confirm(text, abort=True)]: a declined prompt raises
    [click.Abort]. *)
Definition confirm_or_abort (text : string) : M bool :=
  fun s =>
    let answer := click_confirm text in
    (if answer then Ok true else Raise Abort, record [Confirm text answer] s).

(** [time.time()] *)
Definition time : M Z :=
  fun s =>
    let t := time_time (clock_reads s) in
    (Ok t, mkRun (log s ++ [Time t]) (S (clock_reads s))).

(** *** The commands *)

Definition nl : string := String (Ascii.ascii_of_nat 10) EmptyString.

(** [version] *)
Definition version : M unit :=
  console_print (Text ("GDBT version " +:+ gdbt_version)).

(** The loop [for key, value in stencils.items(): ...] of [plan] and
    [apply]; [resources] is the dictionary being accumulated. *)
Fixpoint resolve_stencils (config : Cfg) (items : list (string * Stencil))
    (resources : gmap ResourceID Resource) : M (gmap ResourceID Resource) :=
  match items with
  | [] => mret resources
  | (key, value) :: rest =>
      stencil_resources ←
        resolve value key (providers config) (evaluations config)
                (lookups config);
      resolve_stencils config rest (dict_update resources stencil_resources)
  end.

(** [except gdbt.errors.Error as exc: ...] of both commands *)
Definition report_error {A} (exc : Error) : M A :=
  console_print (Text ("[red][b]ERROR:[/b] " +:+ Errors.message exc));;
  raise (SystemExit 1).

(** [plan(config_dir)] *)
Definition plan (config_dir : string) : M unit :=
  try_except
    ('(config, state_diff) ←
       with_Halo "Loading" (
         spinner_text "Loading config";;
         config ← load_config config_dir;
         spinner_text "Loading resources";;
         stencils ← load_resources config_dir;
         spinner_text "Resolving resources";;
         resources ← resolve_stencils config stencils ∅;
         state_desired ← new_State resources;
         spinner_text "Loading state";;
         state_current ← load (state config) (providers config);
         spinner_text "Calculating diff";;
         state_diff ← new_StateDiff state_current state_desired;
         mret (config, state_diff));
     outs ← outcomes state_diff (providers config);
     let changes := len_values outs in
     if decide (changes = 0) then
       console_print (Text (nl +:+ "[b]Dashboards are up to date![/]" +:+ nl))
     else
       console_print (Text (nl +:+ "[b]Planned changes:[/b]" +:+ nl));;
       rendering ← render state_diff (providers config);
       console_print (Rendered rendering);;
       console_print
         (Text (nl +:+ "Run [bold green]gdbt apply[/] to apply these changes"
                   +:+ nl)))
    report_error.

(** [apply(config_dir, auto_approve)] *)
Definition apply (config_dir : string) (auto_approve : bool) : M unit :=
  try_except
    ('(config, state_diff) ←
       with_Halo "Loading" (
         spinner_text "Loading config";;
         config ← load_config config_dir;
         spinner_text "Loading resources";;
         stencils ← load_resources config_dir;
         spinner_text "Resolving resources";;
         resources ← resolve_stencils config stencils ∅;
         state_desired ← new_State resources;
         spinner_text "Loading state";;
         state_current ← load (state config) (providers config);
         spinner_text "Calculating diff";;
         state_diff ← new_StateDiff state_current state_desired;
         mret (config, state_diff));
     outs ← outcomes state_diff (providers config);
     let changes := len_values outs in
     if decide (changes = 0) then
       console_print (Text (nl +:+ "[b]Dashboards are up to date![/]" +:+ nl))
     else
       console_print (Text (nl +:+ "[b]Pending changes:[/b]" +:+ nl));;
       rendering ← render state_diff (providers config);
       console_print (Rendered rendering);;
       console_print (Text nl);;
       (if negb auto_approve then
          confirm_or_abort "Apply?";;
          console_print (Text nl)
        else mret tt);;
       t_start ← time;
       plan ← new_Plan state_diff;
       state_applied ← plan_apply plan (providers config);
       t_end ← time;
       let duration := (t_end - t_start)%Z in
       with_Halo "Uploading state" (
         push (state config) (providers config) state_applied;;
         spinner_succeed "Uploaded state");;
       console_print (Done changes duration))
    report_error.

(** *** Dispatch and exit status *)

Inductive command : Set :=
| CmdVersion
| CmdPlan (config_dir : string)
| CmdApply (config_dir : string) (auto_approve : bool).

Definition run_command (cmd : command) : M unit :=
  match cmd with
  | CmdVersion => version
  | CmdPlan config_dir => plan config_dir
  | CmdApply config_dir auto_approve => apply config_dir auto_approve
  end.

(** Nothing has happened yet. *)
Definition start : run_state := mkRun [] 0.

(** [main()], the click group in standalone mode, once the command line
    has been parsed into [cmd]: a command that returns ends the process
    with status 0, a [SystemExit] with its code; click turns [click.Abort]
    into the message "Aborted!" on the error stream and status 1; an
    exception nothing catches ends the interpreter with status 1. *)
Definition main (cmd : command) : Z * trace :=
  match run_command cmd start with
  | (Ok tt, s) => (0%Z, log s)
  | (Raise (SystemExit code), s) => (code, log s)
  | (Raise Abort, s) => (1%Z, log s ++ [Stderr "Aborted!"])
  | (Raise (GdbtError _), s) => (1%Z, log s)
  end.

Definition exit_code (cmd : command) : Z := fst (main cmd).
Definition events (cmd : command) : trace := snd (main cmd).

(** *** Observations on traces *)

(** The domain error a logged call raised, if it raised. *)
Definition raised (e : event) : option Error :=
  match e with
  | LoadConfig _ (inl exc) | LoadResources _ (inl exc)
  | Resolve _ _ _ _ _ (inl exc) | NewState _ (inl exc)
  | LoadState _ _ (inl exc) | NewStateDiff _ _ (inl exc)
  | Outcomes _ _ (inl exc) | Render _ _ (inl exc) | NewPlan _ (inl exc)
  | PlanApplyEnd (inl exc) | PushState _ _ _ (inl exc) => Some exc
  | _ => None
  end.

Definition is_raise (e : event) : bool :=
  match raised e with Some _ => true | None => false end.

(** The steps that come before Plan/Apply: configuration and stencil
    loading, resolution, construction and loading of the two states,
    diffing (construction, outcomes, rendering). *)
Definition is_pre_apply_call (e : event) : bool :=
  match e with
  | LoadConfig _ _ | LoadResources _ _ | Resolve _ _ _ _ _ _ | NewState _ _
  | LoadState _ _ _ | NewStateDiff _ _ _ | Outcomes _ _ _ | Render _ _ _ =>
      true
  | _ => false
  end.

(** The calls by which [plan] and [apply] get from the configuration
    directory to the change count. *)
Definition is_reconcile (e : event) : bool :=
  match e with
  | LoadConfig _ _ | LoadResources _ _ | Resolve _ _ _ _ _ _ | NewState _ _
  | LoadState _ _ _ | NewStateDiff _ _ _ | Outcomes _ _ _ => true
  | _ => false
  end.

Definition is_confirm (e : event) : bool :=
  match e with Confirm _ _ => true | _ => false end.

Definition is_confirmed (e : event) : bool :=
  match e with Confirm _ true => true | _ => false end.

Definition is_declined (e : event) : bool :=
  match e with Confirm _ false => true | _ => false end.

Definition is_outcomes (e : event) : bool :=
  match e with Outcomes _ _ _ => true | _ => false end.

Definition is_render (e : event) : bool :=
  match e with Render _ _ _ => true | _ => false end.

Definition is_plan_apply (e : event) : bool :=
  match e with PlanApplyBegin _ _ => true | _ => false end.

Definition is_provider_call (e : event) : bool :=
  match e with ProviderCall _ => true | _ => false end.

Definition is_push (e : event) : bool :=
  match e with PushState _ _ _ _ => true | _ => false end.

(** Anything that can change a backend: running Plan/Apply, a resource
    provider's create, update or delete, a state push. *)
Definition is_mutation (e : event) : bool :=
  is_plan_apply e || is_provider_call e || is_push e.

Definition is_core_call (e : event) : bool :=
  match e with
  | Print _ | Spinner _ | Stderr _ => false
  | _ => true
  end.

(** A domain error was raised by some call of the run. *)
Definition domain_error_occurred (t : trace) : bool := existsb is_raise t.

(** A domain error was raised by one of the steps before Plan/Apply, or
    the user declined the prompt. *)
Definition aborted_before_apply (t : trace) : bool :=
  existsb (fun e => is_pre_apply_call e && is_raise e) t
  || existsb is_declined t.

(** The first value [f] observes in the trace. *)
Fixpoint observe {A} (f : event → option A) (t : trace) : option A :=
  match t with
  | [] => None
  | e :: t' =>
      match f e with
      | Some a => Some a
      | None => observe f t'
      end
  end.

(** What follows the first event satisfying [P]. *)
Fixpoint after (P : event → bool) (t : trace) : trace :=
  match t with
  | [] => []
  | e :: t' => if P e then t' else after P t'
  end.

(** No [Q] event occurs before the first [P] event (and none at all if no
    [P] event occurs). *)
Fixpoint guarded (P Q : event → bool) (t : trace) : bool :=
  match t with
  | [] => true
  | e :: t' => if P e then true else negb (Q e) && guarded P Q t'
  end.

(** The values the reconciliation computed, read off the trace. *)
Definition desired_State : trace → option State :=
  observe (fun e =>
    match e with NewState _ (inr s) => Some s | _ => None end).

Definition current_State : trace → option State :=
  observe (fun e =>
    match e with LoadState _ _ (inr s) => Some s | _ => None end).

Definition computed_StateDiff : trace → option StateDiff :=
  observe (fun e =>
    match e with NewStateDiff _ _ (inr d) => Some d | _ => None end).

(** The dictionary [State(...)] was built from. *)
Definition aggregated_resources : trace → option (gmap ResourceID Resource) :=
  observe (fun e =>
    match e with NewState resources _ => Some resources | _ => None end).

Definition change_count : trace → option nat :=
  observe (fun e =>
    match e with
    | Outcomes _ _ (inr outs) => Some (len_values outs)
    | _ => None
    end).

(** The report [apply] closes with: count and duration. *)
Definition reported : trace → option (nat * Z) :=
  observe (fun e =>
    match e with Print (Done n d) => Some (n, d) | _ => None end).

(** The applied State [plan.apply] returned, and the State handed to the
    state push. *)
Definition applied_State : trace → option State :=
  observe (fun e =>
    match e with PlanApplyEnd (inr s) => Some s | _ => None end).

(** The error [plan.apply] raised. *)
Definition apply_raised : trace → option Error :=
  observe (fun e =>
    match e with PlanApplyEnd (inl exc) => Some exc | _ => None end).

Definition pushed_State : trace → option State :=
  observe (fun e =>
    match e with PushState _ _ s _ => Some s | _ => None end).

Definition clock_readings (t : trace) : list Z :=
  omap (fun e => match e with Time x => Some x | _ => None end) t.

(** The trace up to and including the first event satisfying [P] (all of
    it when there is none). *)
Fixpoint through (P : event → bool) (t : trace) : trace :=
  match t with
  | [] => []
  | e :: t' => if P e then [e] else e :: through P t'
  end.

Definition is_Time (e : event) : bool :=
  match e with Time _ => true | _ => false end.

Definition is_apply_end (e : event) : bool :=
  match e with PlanApplyEnd _ => true | _ => false end.

(** The rendering [StateDiff.render] returned. *)
Definition rendering_of : trace → option Rendering :=
  observe (fun e =>
    match e with Render _ _ (inr r) => Some r | _ => None end).

(** *** The resolution loop as a function *)

(** The dictionary the loop ends with, or the error that ended it. *)
Fixpoint resolve_fold (config : Cfg) (items : list (string * Stencil))
    (resources : gmap ResourceID Resource)
  : Error + gmap ResourceID Resource :=
  match items with
  | [] => inr resources
  | (key, value) :: rest =>
      match Stencil_resolve value key (providers config)
              (evaluations config) (lookups config) with
      | inl exc => inl exc
      | inr stencil_resources =>
          resolve_fold config rest (dict_update resources stencil_resources)
      end
  end.

(** The calls the loop makes. *)
Fixpoint resolve_log (config : Cfg) (items : list (string * Stencil))
  : trace :=
  match items with
  | [] => []
  | (key, value) :: rest =>
      let r := Stencil_resolve value key (providers config)
                 (evaluations config) (lookups config) in
      Resolve value key (providers config) (evaluations config)
              (lookups config) r
      :: match r with inl _ => [] | inr _ => resolve_log config rest end
  end.

(** [d.update(m1); d.update(m2); ...] *)
Definition merge_all (d : gmap ResourceID Resource)
    (ms : list (gmap ResourceID Resource)) : gmap ResourceID Resource :=
  foldl dict_update d ms.

(** The per-stencil mappings, when every stencil resolves. *)
Definition resolutions (config : Cfg) (items : list (string * Stencil))
  : list (Error + gmap ResourceID Resource) :=
  map (fun '(key, value) =>
         Stencil_resolve value key (providers config) (evaluations config)
                         (lookups config)) items.

(** *** Functions on events that ignore a kind of event *)

(** [f] gives [a] on every resolve call ... *)
Definition resolve_blind {A} (f : event → A) (a : A) : Prop :=
  ∀ value key ps evals lks r, f (Resolve value key ps evals lks r) = a.

(** ... and on every provider operation. *)
Definition provider_blind {A} (f : event → A) (a : A) : Prop :=
  ∀ op, f (ProviderCall op) = a.

(** *** Further observations *)

(** What the [except] handler prints for [exc]. *)
Definition error_text (exc : Error) : message :=
  Text ("[red][b]ERROR:[/b] " +:+ Errors.message exc).

(** The first domain error raised in the run. *)
Definition first_raised : trace → option Error := observe raised.

Definition is_resolve (e : event) : bool :=
  match e with Resolve _ _ _ _ _ _ => true | _ => false end.

Definition is_new_state (e : event) : bool :=
  match e with NewState _ _ => true | _ => false end.

Definition is_new_plan (e : event) : bool :=
  match e with NewPlan _ _ => true | _ => false end.

Definition is_succeed (e : event) : bool :=
  match e with Spinner (SpinSucceed _) => true | _ => false end.

(** The calls a run makes apart from the prompt. *)
Definition is_backend_call (e : event) : bool :=
  is_core_call e && negb (is_confirm e).

(** The resolve calls of a run in which every stencil resolves: one per
    stencil, in the order of [stencils.items()]. *)
Definition resolve_calls (config : Cfg) (items : list (string * Stencil))
  : trace :=
  map (fun '(key, value) =>
         Resolve value key (providers config) (evaluations config)
                 (lookups config)
                 (Stencil_resolve value key (providers config)
                    (evaluations config) (lookups config))) items.

(** The arguments the calls of a run were given. *)
Definition diff_inputs : trace → option (State * State) :=
  observe (fun e =>
    match e with NewStateDiff cur des _ => Some (cur, des) | _ => None end).

Definition counted_diff : trace → option (StateDiff * Providers) :=
  observe (fun e =>
    match e with Outcomes d ps _ => Some (d, ps) | _ => None end).

Definition rendered_diff : trace → option (StateDiff * Providers) :=
  observe (fun e =>
    match e with Render d ps _ => Some (d, ps) | _ => None end).

Definition planned_diff : trace → option StateDiff :=
  observe (fun e => match e with NewPlan d _ => Some d | _ => None end).

Definition built_plan : trace → option Plan :=
  observe (fun e =>
    match e with NewPlan _ (inr p) => Some p | _ => None end).

Definition applied_plan : trace → option (Plan * Providers) :=
  observe (fun e =>
    match e with PlanApplyBegin p ps => Some (p, ps) | _ => None end).

Definition loaded_from : trace → option (StateConfig * Providers) :=
  observe (fun e =>
    match e with LoadState st ps _ => Some (st, ps) | _ => None end).

Definition pushed_to : trace → option (StateConfig * Providers) :=
  observe (fun e =>
    match e with PushState st ps _ _ => Some (st, ps) | _ => None end).

(** The error the state push raised. *)
Definition push_raised : trace → option Error :=
  observe (fun e =>
    match e with PushState _ _ _ (inl exc) => Some exc | _ => None end).

(** The configuration [load_config] returned. *)
Definition loaded_config : trace → option Cfg :=
  observe (fun e =>
    match e with LoadConfig _ (inr config) => Some config | _ => None end).

(** The terminal is used by one writer at a time: starting from a spinner
    that is [running] or not, a spinner is started only when none runs, its
    text is set and it is stopped only while it runs, the console, the
    prompt and the error stream are written only while none runs, and the
    trace ends with no spinner running. *)
Fixpoint terminal_ok (running : bool) (t : trace) : bool :=
  match t with
  | [] => negb running
  | Spinner (SpinStart _) :: t' => negb running && terminal_ok true t'
  | Spinner SpinStop :: t' => running && terminal_ok false t'
  | Spinner (SpinText _) :: t' | Spinner (SpinSucceed _) :: t' =>
      running && terminal_ok running t'
  | Print _ :: t' | Confirm _ _ :: t' | Stderr _ :: t' =>
      negb running && terminal_ok running t'
  | _ :: t' => terminal_ok running t'
  end.

(** An event that does not touch the terminal. *)
Definition is_silent (e : event) : bool :=
  match e with
  | Spinner _ | Print _ | Confirm _ _ | Stderr _ => false
  | _ => true
  end.

(** A print of the [except] handler. *)
Definition is_error_print (e : event) : bool :=
  match e with
  | Print (Text s) => String.prefix "[red][b]ERROR:[/b] " s
  | _ => false
  end.

(** The last event of a run. *)
Definition final_event (t : trace) : option event := last t.

End Cli.
Arguments final_event : simpl never.

(** ** A small in-memory core

    Resources are strings named by strings, a stencil is what it resolves
    to, states are dictionaries, the diff is computed entry by entry and
    Plan/Apply performs one provider operation per outcome.  A scenario
    fixes the inputs of a run; the commands are run on it in the examples
    below. *)

Module Demo.

Inductive outcome : Set :=
| Create (resource : string)
| Update (from to : string)
| Delete (resource : string).

Definition classify (current desired : option string) : option outcome :=
  match current, desired with
  | Some x, Some y => if decide (x = y) then None else Some (Update x y)
  | Some x, None => Some (Delete x)
  | None, Some y => Some (Create y)
  | None, None => None
  end.

Definition diff_outcomes (d : gmap string string * gmap string string)
  : gmap string outcome :=
  merge classify (fst d) (snd d).

Definition op_of (o : outcome) : ProviderOp string :=
  match o with
  | Create r => OpCreate r
  | Update x y => OpUpdate x y
  | Delete r => OpDelete r
  end.

Definition ops_of (d : gmap string string * gmap string string)
  : list (ProviderOp string) :=
  map (fun kv => op_of (snd kv)) (map_to_list (diff_outcomes d)).

Record scenario : Type := {
  stencils : list (string * (Error + gmap string string));
  current : Error + gmap string string;
  (** [Some (n, exc)]: [plan.apply] raises [exc] after [n] operations *)
  apply_failure : option (nat * Error);
  push_result : Error + unit;
  answer : bool;
}.

Definition run_plan (sc : scenario)
    (d : gmap string string * gmap string string)
  : list (ProviderOp string) * (Error + gmap string string) :=
  match apply_failure sc with
  | Some (n, exc) => (take n (ops_of d), inl exc)
  | None => (ops_of d, inr (snd d))
  end.

Definition core_of (sc : scenario) : Core := {|
  Providers := unit;
  Evaluations := unit;
  Lookups := unit;
  StateConfig := unit;
  Stencil := Error + gmap string string;
  ResourceID := string;
  Resource := string;
  State := gmap string string;
  Outcome := outcome;
  StateDiff := gmap string string * gmap string string;
  Plan := gmap string string * gmap string string;
  Rendering := list (string * outcome);
  gdbt_version := "1.0.0";
  gdbt_load_config := fun _ => inr (mkConfig tt tt tt tt);
  gdbt_load_resources := fun _ => inr (stencils sc);
  Stencil_resolve := fun value _ _ _ _ => value;
  gdbt_State := inr;
  gdbt_state_load := fun _ _ => current sc;
  gdbt_StateDiff := fun cur des => inr (cur, des);
  StateDiff_outcomes := fun d _ => inr (diff_outcomes d);
  StateDiff_render := fun d _ => inr (map_to_list (diff_outcomes d));
  gdbt_Plan := inr;
  Plan_apply := fun d _ => run_plan sc d;
  gdbt_state_push := fun _ _ _ => push_result sc;
  click_confirm := fun _ => answer sc;
  time_time := fun n => (100 + 7 * Z.of_nat n)%Z;
|}.

Definition provider_failed : Error :=
  Errors.mkError Errors.ProviderError "create failed".

(** Two stencils that both produce the resource id ["dash"]. *)
Definition colliding : scenario := {|
  stencils := [("a", inr {[ "dash" := "from a" ]});
               ("b", inr {[ "dash" := "from b" ]})];
  current := inr ∅;
  apply_failure := None;
  push_result := inr tt;
  answer := true;
|}.

(** Nothing to do: the recorded state is what the stencils resolve to. *)
Definition up_to_date : scenario := {|
  stencils := [("a", inr {[ "dash" := "v1" ]})];
  current := inr {[ "dash" := "v1" ]};
  apply_failure := None;
  push_result := inr tt;
  answer := true;
|}.

(** One dashboard to update and one to create. *)
Definition two_changes (failure : option (nat * Error)) (yes : bool)
  : scenario := {|
  stencils := [("a", inr {[ "dash" := "v2" ]});
               ("b", inr {[ "board" := "v1" ]})];
  current := inr {[ "dash" := "v1" ]};
  apply_failure := failure;
  push_result := inr tt;
  answer := yes;
|}.

(** The recorded state cannot be read. *)
Definition unreadable_state : scenario := {|
  stencils := [("a", inr {[ "dash" := "v2" ]})];
  current := inl (Errors.mkError Errors.StateError "corrupt state");
  apply_failure := None;
  push_result := inr tt;
  answer := true;
|}.

(** A core like [core_of sc] whose [plan.apply] does not raise: it performs
    the operations [ops] and returns [applied], whatever the plan holds (an
    orchestrator that records the operations it could not carry out and
    returns, section 4.5). *)
Definition core_returning (sc : scenario) (ops : list (ProviderOp string))
    (applied : gmap string string) : Core := {|
  Providers := unit;
  Evaluations := unit;
  Lookups := unit;
  StateConfig := unit;
  Stencil := Error + gmap string string;
  ResourceID := string;
  Resource := string;
  State := gmap string string;
  Outcome := outcome;
  StateDiff := gmap string string * gmap string string;
  Plan := gmap string string * gmap string string;
  Rendering := list (string * outcome);
  gdbt_version := "1.0.0";
  gdbt_load_config := fun _ => inr (mkConfig tt tt tt tt);
  gdbt_load_resources := fun _ => inr (stencils sc);
  Stencil_resolve := fun value _ _ _ _ => value;
  gdbt_State := inr;
  gdbt_state_load := fun _ _ => current sc;
  gdbt_StateDiff := fun cur des => inr (cur, des);
  StateDiff_outcomes := fun d _ => inr (diff_outcomes d);
  StateDiff_render := fun d _ => inr (map_to_list (diff_outcomes d));
  gdbt_Plan := inr;
  Plan_apply := fun _ _ => (ops, inr applied);
  gdbt_state_push := fun _ _ _ => push_result sc;
  click_confirm := fun _ => answer sc;
  time_time := fun n => (100 + 7 * Z.of_nat n)%Z;
|}.

(** Of the two changes only the update of ["dash"] is carried out. *)
Definition one_of_two : Core :=
  core_returning (two_changes None true)
    [OpUpdate "v1" "v2"] {[ "dash" := "v2" ]}.

(** The second of three stencils does not resolve. *)
Definition broken_stencil : scenario := {|
  stencils := [("a", inr {[ "dash" := "v2" ]});
               ("b", inl (Errors.mkError Errors.ResolutionError
                            "undefined lookup"));
               ("c", inr {[ "board" := "v1" ]})];
  current := inr ∅;
  apply_failure := None;
  push_result := inr tt;
  answer := true;
|}.

(** The changes are applied but the state cannot be written back. *)
Definition push_fails : scenario := {|
  stencils := [("a", inr {[ "dash" := "v2" ]})];
  current := inr {[ "dash" := "v1" ]};
  apply_failure := None;
  push_result := inl (Errors.mkError Errors.StateError "read-only backend");
  answer := true;
|}.

End Demo.

(** * Properties *)

(** ** Dictionaries *)

Section DictFacts.
Context {K : Type} `{Countable K} {V : Type}.

Lemma dict_update_lookup (d other : gmap K V) (k : K) :
  dict_update d other !! k =
    match other !! k with Some v => Some v | None => d !! k end.
Proof.
  unfold dict_update. rewrite lookup_union.
  destruct (other !! k), (d !! k); reflexivity.
Qed.

Lemma dict_update_overwrites (d other : gmap K V) (k : K) (v : V) :
  other !! k = Some v → dict_update d other !! k = Some v.
Proof. intros Hk. rewrite dict_update_lookup, Hk. reflexivity. Qed.

Lemma dict_update_keeps (d other : gmap K V) (k : K) :
  other !! k = None → dict_update d other !! k = d !! k.
Proof. intros Hk. rewrite dict_update_lookup, Hk. reflexivity. Qed.

End DictFacts.

(** ** Traces *)

Section TraceFacts.
Context `{core : Core}.

Abbreviation Cfg := (Config Providers Evaluations Lookups StateConfig).

Lemma observe_app {A} (f : event → option A) (t1 t2 : trace) :
  observe f (t1 ++ t2) =
    match observe f t1 with Some a => Some a | None => observe f t2 end.
Proof. induction t1 as [|e t1 IH]; cbn; [done|]. by destruct (f e). Qed.

Lemma after_app P (t1 t2 : trace) :
  after P (t1 ++ t2) =
    if existsb P t1 then after P t1 ++ t2 else after P t2.
Proof. induction t1 as [|e t1 IH]; cbn; [done|]. by destruct (P e). Qed.

Lemma through_app P (t1 t2 : trace) :
  through P (t1 ++ t2) =
    if existsb P t1 then through P t1 else t1 ++ through P t2.
Proof.
  induction t1 as [|e t1 IH]; cbn; [done|].
  destruct (P e); cbn; [done|]. rewrite IH. by destruct (existsb P t1).
Qed.

Lemma guarded_app P Q (t1 t2 : trace) :
  guarded P Q (t1 ++ t2) =
    guarded P Q t1 && (existsb P t1 || guarded P Q t2).
Proof.
  induction t1 as [|e t1 IH]; cbn; [done|].
  destruct (P e); cbn; [done|]. rewrite IH. by destruct (Q e).
Qed.

Lemma guarded_absent P Q (t : trace) :
  existsb Q t = false → guarded P Q t = true.
Proof.
  induction t as [|e t IH]; cbn; [done|].
  destruct (P e); [done|]. destruct (Q e); cbn; [done|]. exact IH.
Qed.

(** A guarded event that does occur has its guard before it. *)
Lemma guarded_precedes P Q (t1 t2 : trace) (e : event) :
  guarded P Q (t1 ++ e :: t2) = true →
  Q e = true → P e = false → existsb P t1 = true.
Proof.
  intros Hg HQ HP. rewrite guarded_app in Hg. cbn in Hg.
  rewrite HQ, HP in Hg. destruct (existsb P t1); [done|].
  by destruct (guarded P Q t1).
Qed.

(** *** Segments of one kind of event *)

Lemma existsb_resolve_log P (config : Cfg) items :
  resolve_blind P false → existsb P (resolve_log config items) = false.
Proof.
  intros HP. induction items as [|[key value] rest IH]; cbn; [done|].
  rewrite HP. cbn. by destruct (Stencil_resolve _ _ _ _ _).
Qed.

Lemma observe_resolve_log {A} (f : event → option A) (config : Cfg) items :
  resolve_blind f None → observe f (resolve_log config items) = None.
Proof.
  intros Hf. induction items as [|[key value] rest IH]; cbn; [done|].
  rewrite Hf. by destruct (Stencil_resolve _ _ _ _ _).
Qed.

Lemma filter_resolve_log P (config : Cfg) items :
  resolve_blind P false → List.filter P (resolve_log config items) = [].
Proof.
  intros HP. induction items as [|[key value] rest IH]; cbn; [done|].
  rewrite HP. by destruct (Stencil_resolve _ _ _ _ _).
Qed.

Lemma omap_resolve_log {A} (f : event → option A) (config : Cfg) items :
  resolve_blind f None → omap f (resolve_log config items) = [].
Proof.
  intros Hf. induction items as [|[key value] rest IH]; cbn; [done|].
  rewrite Hf. by destruct (Stencil_resolve _ _ _ _ _).
Qed.

Lemma existsb_ops P (ops : list (ProviderOp Resource)) :
  provider_blind P false → existsb P (map ProviderCall ops) = false.
Proof. intros HP. induction ops; cbn; [done|]. by rewrite HP. Qed.

Lemma observe_ops {A} (f : event → option A)
    (ops : list (ProviderOp Resource)) :
  provider_blind f None → observe f (map ProviderCall ops) = None.
Proof. intros Hf. induction ops; cbn; [done|]. by rewrite Hf. Qed.

Lemma filter_ops P (ops : list (ProviderOp Resource)) :
  provider_blind P false → List.filter P (map ProviderCall ops) = [].
Proof. intros HP. induction ops; cbn; [done|]. by rewrite HP. Qed.

Lemma omap_ops {A} (f : event → option A)
    (ops : list (ProviderOp Resource)) :
  provider_blind f None → omap f (map ProviderCall ops) = [].
Proof. intros Hf. induction ops; cbn; [done|]. by rewrite Hf. Qed.

Lemma filter_provider_calls (ops : list (ProviderOp Resource)) :
  List.filter is_provider_call (map ProviderCall ops) = map ProviderCall ops.
Proof. induction ops; cbn; [done|]. by f_equal. Qed.

(** The loop's calls contain a raise exactly when the loop ends in one. *)
Lemma raise_resolve_log (config : Cfg) items resources :
  existsb is_raise (resolve_log config items) =
    match resolve_fold config items resources with
    | inl _ => true
    | inr _ => false
    end.
Proof.
  revert resources.
  induction items as [|[key value] rest IH]; intros resources; cbn; [done|].
  destruct (Stencil_resolve _ _ _ _ _); cbn; [done|]. apply IH.
Qed.

Lemma pre_raise_resolve_log (config : Cfg) items resources :
  existsb (fun e => is_pre_apply_call e && is_raise e)
          (resolve_log config items) =
    match resolve_fold config items resources with
    | inl _ => true
    | inr _ => false
    end.
Proof.
  revert resources.
  induction items as [|[key value] rest IH]; intros resources; cbn; [done|].
  destruct (Stencil_resolve _ _ _ _ _); cbn; [done|]. apply IH.
Qed.

(** *** The resolution loop *)

Lemma resolve_stencils_run (config : Cfg) items resources s :
  resolve_stencils config items resources s =
    (of_call (resolve_fold config items resources),
     record (resolve_log config items) s).
Proof.
  revert resources s.
  induction items as [|[key value] rest IH]; intros resources [tr n].
  - cbn. unfold record. cbn. by rewrite app_nil_r.
  - cbn. unfold mbind, M_bind, bind, resolve, invoke.
    destruct (Stencil_resolve _ _ _ _ _) as [exc|m]; cbn.
    + reflexivity.
    + rewrite IH. unfold record. cbn. by rewrite <- app_assoc.
Qed.

Lemma resolve_fold_all_ok (config : Cfg) items ms resources :
  resolutions config items = map inr ms →
  resolve_fold config items resources = inr (merge_all resources ms).
Proof.
  revert ms resources.
  induction items as [|[key value] rest IH]; intros [|m ms] resources Hres;
    cbn in *; try done.
  injection Hres as Hm Hrest. rewrite Hm. by apply IH.
Qed.

Lemma resolve_log_all_ok (config : Cfg) items ms :
  resolutions config items = map inr ms →
  existsb is_raise (resolve_log config items) = false.
Proof.
  intros Hres. rewrite (raise_resolve_log config items ∅).
  by rewrite (resolve_fold_all_ok _ _ ms).
Qed.

Lemma merge_all_absent (d : gmap ResourceID Resource) ms id :
  Forall (fun m : gmap ResourceID Resource => m !! id = None) ms →
  merge_all d ms !! id = d !! id.
Proof.
  revert d. induction ms as [|m ms IH]; intros d Hms; cbn; [done|].
  inversion Hms as [|? ? Hm Hrest]; subst.
  unfold merge_all in IH. rewrite IH by done. by apply dict_update_keeps.
Qed.

Lemma merge_all_last (d : gmap ResourceID Resource) ms1 m ms2 id r :
  m !! id = Some r →
  Forall (fun m' : gmap ResourceID Resource => m' !! id = None) ms2 →
  merge_all d (ms1 ++ m :: ms2) !! id = Some r.
Proof.
  intros Hm Hms2. unfold merge_all. rewrite foldl_app. cbn.
  fold (merge_all (dict_update (foldl dict_update d ms1) m) ms2).
  rewrite merge_all_absent by done. by apply dict_update_overwrites.
Qed.

End TraceFacts.

(** ** Running a command symbolically *)

Ltac unfold_cli :=
  unfold with_Halo, try_except, mbind, M_bind, bind, mret, M_ret, ret,
    report_error, console_print, spinner_text, spinner_succeed, load_config,
    load_resources, new_State, load, new_StateDiff, outcomes, render,
    new_Plan, plan_apply, push, confirm_or_abort, raise, time, emit, invoke,
    record, start.

(** One case distinction on what the next call of the run does. *)
Ltac case_call :=
  match goal with
  | |- context [resolve_stencils ?c ?i ?r ?t] =>
      rewrite (resolve_stencils_run c i r t)
  | |- context [of_call ?r] =>
      lazymatch r with
      | inl _ => fail
      | inr _ => fail
      | _ => destruct r eqn:?
      end
  | |- context [Plan_apply ?p ?ps] =>
      destruct (Plan_apply p ps) as [? ?] eqn:?
  | |- context [decide (len_values ?o = 0)] =>
      destruct (decide (len_values o = 0))
  | |- context [click_confirm ?s] => destruct (click_confirm s) eqn:?
  | |- context [negb ?b] => is_var b; destruct b
  end.

(** Runs every [main cmd] of the goal through all its cases; each case is
    left with the exit status and the trace it produces. *)
Ltac run_main :=
  unfold exit_code, events;
  repeat match goal with
  | |- context [main ?cmd] =>
      let code := fresh "code" in
      let t := fresh "t" in
      let Hrun := fresh "Hrun" in
      destruct (main cmd) as [code t] eqn:Hrun; cbn [fst snd]
  end;
  repeat match goal with
  | H : main _ = (_, _) |- _ => revert H
  end;
  unfold main, run_command, apply, plan, version;
  repeat (progress (unfold_cli; cbn) || case_call);
  unfold record; cbn; rewrite <- ?app_assoc; cbn;
  repeat (intros [= <- <-]).

Ltac blind :=
  by (intros ? ? ? ? ? ?; reflexivity) || by (intros ?; reflexivity).

(** Evaluation of an observation on a trace with symbolic segments. *)
Ltac trace_step :=
  match goal with
  | |- context [existsb ?P (?a ++ ?b)] => rewrite (existsb_app P a b)
  | |- context [List.filter ?P (?a ++ ?b)] => rewrite (List.filter_app P a b)
  | |- context [observe ?f (?a ++ ?b)] => rewrite (observe_app f a b)
  | |- context [omap ?f (?a ++ ?b)] => rewrite (omap_app f a b)
  | |- context [after ?P (?a ++ ?b)] => rewrite (after_app P a b)
  | |- context [through ?P (?a ++ ?b)] => rewrite (through_app P a b)
  | |- context [guarded ?P ?Q (?a ++ ?b)] => rewrite (guarded_app P Q a b)
  | H : resolve_fold ?c ?l ?r = _
    |- context [existsb is_raise (resolve_log ?c ?l)] =>
      rewrite (raise_resolve_log c l r), H
  | H : resolve_fold ?c ?l ?r = _
    |- context [existsb (fun e => is_pre_apply_call e && is_raise e)
                        (resolve_log ?c ?l)] =>
      rewrite (pre_raise_resolve_log c l r), H
  | |- context [existsb ?P (resolve_log ?c ?l)] =>
      rewrite (existsb_resolve_log P c l) by blind
  | |- context [observe ?f (resolve_log ?c ?l)] =>
      rewrite (observe_resolve_log f c l) by blind
  | |- context [List.filter ?P (resolve_log ?c ?l)] =>
      rewrite (filter_resolve_log P c l) by blind
  | |- context [omap ?f (resolve_log ?c ?l)] =>
      rewrite (omap_resolve_log f c l) by blind
  | |- context [List.filter is_provider_call (map ProviderCall ?o)] =>
      rewrite (filter_provider_calls o)
  | |- context [existsb ?P (map ProviderCall ?o)] =>
      rewrite (existsb_ops P o) by blind
  | |- context [observe ?f (map ProviderCall ?o)] =>
      rewrite (observe_ops f o) by blind
  | |- context [List.filter ?P (map ProviderCall ?o)] =>
      rewrite (filter_ops P o) by blind
  | |- context [omap ?f (map ProviderCall ?o)] =>
      rewrite (omap_ops f o) by blind
  | |- context [guarded ?P ?Q (resolve_log ?c ?l)] =>
      rewrite (guarded_absent P Q (resolve_log c l))
        by (apply existsb_resolve_log; blind)
  | |- context [guarded ?P ?Q (map ProviderCall ?o)] =>
      rewrite (guarded_absent P Q (map ProviderCall o))
        by (apply existsb_ops; blind)
  end.

Ltac trace_simpl := repeat (progress cbn || trace_step).

(** ** The commands *)

Section Commands.
Context `{core : Core}.

(** C8.  The [version] command prints the version string and does nothing
    else: its trace is that single print, it exits with status 0, and no
    call into the core (resolution, state load or push, provider
    operation) appears in it. *)
Theorem version_prints_only :
  events CmdVersion = [Print (Text ("GDBT version " +:+ gdbt_version))] ∧
  exit_code CmdVersion = 0%Z ∧
  existsb is_core_call (events CmdVersion) = false.
Proof. repeat split. Qed.

(** C7.  [plan] exits with status 1 when a call of the run raised a domain
    error and with status 0 otherwise.  When the diff has zero outcomes, it
    exits with status 0 and all it does after computing the outcomes is to
    print that the dashboards are up to date; nothing is rendered. *)
Theorem plan_exit_status (config_dir : string) :
  let t := events (CmdPlan config_dir) in
  exit_code (CmdPlan config_dir) =
    (if domain_error_occurred t then 1 else 0)%Z ∧
  (change_count t = Some 0 →
     exit_code (CmdPlan config_dir) = 0%Z ∧
     after is_outcomes t =
       [Print (Text (nl +:+ "[b]Dashboards are up to date![/]" +:+ nl))] ∧
     existsb is_render t = false).
Proof.
  unfold domain_error_occurred, change_count. run_main; trace_simpl.
  all: split; [reflexivity|].
  all: try (intros [= ?]); done.
Qed.

(** C10.  An [apply] whose diff has zero outcomes returns right after
    computing them: it prints that the dashboards are up to date and exits
    with status 0; whatever [auto_approve] is, there is no prompt, Plan/Apply
    is not run, no provider operation is performed and nothing is pushed. *)
Theorem apply_no_changes (config_dir : string) (auto_approve : bool) :
  let t := events (CmdApply config_dir auto_approve) in
  change_count t = Some 0 →
  exit_code (CmdApply config_dir auto_approve) = 0%Z ∧
  after is_outcomes t =
    [Print (Text (nl +:+ "[b]Dashboards are up to date![/]" +:+ nl))] ∧
  existsb is_confirm t = false ∧
  existsb is_mutation t = false.
Proof.
  unfold change_count. run_main; trace_simpl.
  all: try (intros [= ?]); done.
Qed.


(** C3.  When a step before Plan/Apply (configuration or stencil loading,
    resolution, construction or loading of a state, diffing) raises a domain
    error, or the user declines the prompt, [apply] exits with status 1 and
    has mutated nothing: Plan/Apply was not run, no resource-provider
    operation was performed and no state was pushed. *)
Theorem apply_aborts_without_mutation
    (config_dir : string) (auto_approve : bool) :
  let t := events (CmdApply config_dir auto_approve) in
  aborted_before_apply t = true →
  exit_code (CmdApply config_dir auto_approve) = 1%Z ∧
  existsb is_plan_apply t = false ∧
  existsb is_provider_call t = false ∧
  existsb is_push t = false.
Proof.
  unfold aborted_before_apply. run_main; trace_simpl; done.
Qed.

(** C4, as amended.  The state push happens exactly when [plan.apply]
    returns: the State it returned is then pushed, once, after the return,
    before the command ends.  When [plan.apply] raises (or is never
    reached) nothing is pushed; a raise makes the command exit with
    status 1. *)
Theorem apply_pushes_returned_state
    (config_dir : string) (auto_approve : bool) :
  let t := events (CmdApply config_dir auto_approve) in
  match applied_State t with
  | Some applied =>
      pushed_State t = Some applied ∧
      length (List.filter is_push t) = 1 ∧
      guarded is_apply_end is_push t = true
  | None => existsb is_push t = false
  end ∧
  (∀ exc, apply_raised t = Some exc →
     existsb is_push t = false ∧
     exit_code (CmdApply config_dir auto_approve) = 1%Z).
Proof.
  unfold applied_State, pushed_State, apply_raised. run_main.
  all: split; [|intros exc]; trace_simpl; done.
Qed.

(** C5.  In an [apply] run with a nonzero change count there is at most one
    prompt; it comes after the outcomes were computed and never once
    [plan.apply] has been invoked.  With [auto_approve] there is no prompt
    at all; without it, nothing mutating (Plan/Apply, provider operation,
    push) happens before the user has confirmed, and once the diff is
    rendered the prompt "Apply?" is shown exactly once.  A declined prompt
    ends the run with status 1 and no mutation. *)
Theorem confirmation_single_decision_point
    (config_dir : string) (auto_approve : bool) (n : nat) :
  let t := events (CmdApply config_dir auto_approve) in
  change_count t = Some (S n) →
  (length (List.filter is_confirm t) ≤ 1)%nat ∧
  guarded is_outcomes is_confirm t = true ∧
  existsb is_confirm (after is_plan_apply t) = false ∧
  (if auto_approve then existsb is_confirm t = false
   else
     guarded is_confirmed is_mutation t = true ∧
     (∀ r, rendering_of t = Some r →
        List.filter is_confirm t =
          [Confirm "Apply?" (click_confirm "Apply?")])) ∧
  (existsb is_declined t = true →
     existsb is_mutation t = false ∧
     exit_code (CmdApply config_dir auto_approve) = 1%Z).
Proof.
  unfold change_count, rendering_of. run_main; trace_simpl.
  all: try done.
  all: intros _; repeat split; try done; try lia.
  all: try congruence.
  all: destruct auto_approve; repeat split; congruence.
Qed.

(** C6, as amended.  An [apply] run that ends with its report exits with
    status 0 and reports the number of outcomes of the diff, which was
    computed before the prompt and before anything mutating; the count is
    not taken from what [plan.apply] did.  The duration it reports is the
    difference of the two clock readings: the first is taken when the
    prompt is over, and what lies between it and the second is exactly the
    construction of the Plan and the run of [plan.apply] up to its
    return. *)
Theorem apply_reports_planned_count
    (config_dir : string) (auto_approve : bool) (n : nat) (d : Z) :
  let t := events (CmdApply config_dir auto_approve) in
  reported t = Some (n, d) →
  exit_code (CmdApply config_dir auto_approve) = 0%Z ∧
  change_count t = Some n ∧
  guarded is_outcomes is_confirm t = true ∧
  guarded is_outcomes is_mutation t = true ∧
  clock_readings t = [time_time 0; time_time 1] ∧
  d = (time_time 1 - time_time 0)%Z ∧
  existsb is_confirm (after is_Time t) = false ∧
  ∃ diff p ps ops applied,
    computed_StateDiff t = Some diff ∧
    gdbt_Plan diff = inr p ∧
    Plan_apply p ps = (ops, inr applied) ∧
    through is_Time (after is_Time t) =
      NewPlan diff (inr p) :: PlanApplyBegin p ps
      :: map ProviderCall ops
      ++ [PlanApplyEnd (inr applied); Time (time_time 1)].
Proof.
  unfold reported, change_count, clock_readings, computed_StateDiff.
  run_main; trace_simpl; try done.
  all: intros [= <- <-]; repeat split; try done.
  all: do 5 eexists; repeat split; eauto.
  all: by rewrite <- app_assoc.
Qed.

(** C9.  On the same inputs [plan] and [apply] make the same calls with the
    same results up to and including the computation of the outcomes, and
    so compute the same desired State, the same current State, the same
    StateDiff and the same change count. *)
Theorem plan_apply_same_reconciliation
    (config_dir : string) (auto_approve : bool) :
  let tp := events (CmdPlan config_dir) in
  let ta := events (CmdApply config_dir auto_approve) in
  through is_outcomes tp = through is_outcomes ta ∧
  List.filter is_reconcile tp = List.filter is_reconcile ta ∧
  desired_State tp = desired_State ta ∧
  current_State tp = current_State ta ∧
  computed_StateDiff tp = computed_StateDiff ta ∧
  change_count tp = change_count ta.
Proof.
  unfold desired_State, current_State, computed_StateDiff, change_count.
  run_main; trace_simpl; done.
Qed.

End Commands.

(** ** Aggregation of the resolved stencils *)

Section Aggregation.
Context `{core : Core}.

Abbreviation Cfg := (Config Providers Evaluations Lookups StateConfig).

(** C1, as amended.  When every stencil resolves, aggregating the
    per-stencil results does not fail: the loop returns the dictionaries
    merged by [dict.update] in iteration order, no call of it raises, and
    that merged dictionary is what [plan] and [apply] build the desired
    State from.  For a ResourceID that several stencils produce, the merged
    dictionary holds the Resource of the last of them: the earlier ones are
    overwritten. *)
Theorem resolve_stencils_overwrites
    (config_dir : string) (auto_approve : bool) (config : Cfg)
    (items : list (string * Stencil)) (ms : list (gmap ResourceID Resource)) :
  gdbt_load_config config_dir = inr config →
  gdbt_load_resources config_dir = inr items →
  resolutions config items = map inr ms →
  fst (resolve_stencils config items ∅ start) = Ok (merge_all ∅ ms) ∧
  existsb is_raise (resolve_log config items) = false ∧
  aggregated_resources (events (CmdPlan config_dir)) =
    Some (merge_all ∅ ms) ∧
  aggregated_resources (events (CmdApply config_dir auto_approve)) =
    Some (merge_all ∅ ms) ∧
  (∀ ms1 m ms2 id r,
     ms = ms1 ++ m :: ms2 →
     m !! id = Some r →
     Forall (fun m' : gmap ResourceID Resource => m' !! id = None) ms2 →
     merge_all ∅ ms !! id = Some r).
Proof.
  intros Hconfig Hitems Hres.
  pose proof (resolve_fold_all_ok config items ms ∅ Hres) as Hfold.
  split; [by rewrite resolve_stencils_run, Hfold|].
  split; [by eapply resolve_log_all_ok|].
  split; [|split].
  3: { intros ms1 m ms2 id r -> Hm Hms2. by apply merge_all_last. }
  all: revert Hconfig Hitems Hfold; unfold aggregated_resources.
  all: run_main; trace_simpl.
  all: try (intros [=]; fail).
  all: intros [= <-]; try (intros [=]; fail).
  all: intros [= <-]; intros Hfold; rewrite Hfold in *; congruence.
Qed.

End Aggregation.

(** ** The commands on the in-memory core *)

(** Two stencils resolve to the same resource id: the aggregation succeeds
    and keeps the second stencil's resource; no error is raised and both
    commands exit with status 0. *)
Lemma colliding_stencils_merge_silently :
  let config := mkConfig tt tt tt tt in
  let items := Demo.stencils Demo.colliding in
  resolutions (core := Demo.core_of Demo.colliding) config items =
    [inr {[ "dash" := "from a" ]}; inr {[ "dash" := "from b" ]}] ∧
  fst (resolve_stencils (core := Demo.core_of Demo.colliding)
         config items ∅ start) = Ok {[ "dash" := "from b" ]} ∧
  domain_error_occurred (core := Demo.core_of Demo.colliding)
    (events (CmdPlan ".")) = false ∧
  desired_State (core := Demo.core_of Demo.colliding)
    (events (CmdPlan ".")) = Some {[ "dash" := "from b" ]} ∧
  exit_code (core := Demo.core_of Demo.colliding) (CmdPlan ".") = 0%Z ∧
  exit_code (core := Demo.core_of Demo.colliding) (CmdApply "." true) = 0%Z.
Proof. vm_compute. repeat split. Qed.

Lemma resolve_stencils_overwrites_witness :
  merge_all (core := Demo.core_of Demo.colliding) ∅
    [{[ "dash" := "from a" ]}; {[ "dash" := "from b" ]}] !! "dash" =
  Some "from b".
Proof.
  refine (proj2 (proj2 (proj2 (proj2
    (resolve_stencils_overwrites (core := Demo.core_of Demo.colliding)
       "." true (mkConfig tt tt tt tt) (Demo.stencils Demo.colliding)
       [{[ "dash" := "from a" ]}; {[ "dash" := "from b" ]}]
       eq_refl eq_refl eq_refl))))
    [{[ "dash" := "from a" ]}] {[ "dash" := "from b" ]} [] "dash" "from b"
    eq_refl _ _).
  - vm_compute. reflexivity.
  - constructor.
Defined.

(** Nothing to change. *)
Lemma plan_exit_status_witness :
  change_count (core := Demo.core_of Demo.up_to_date) (events (CmdPlan "."))
    = Some 0 ∧
  exit_code (core := Demo.core_of Demo.up_to_date) (CmdPlan ".") = 0%Z ∧
  existsb is_render
    (events (core := Demo.core_of Demo.up_to_date) (CmdPlan ".")) = false.
Proof.
  split; [vm_compute; reflexivity|].
  destruct (proj2 (plan_exit_status (core := Demo.core_of Demo.up_to_date)
                     ".")) as (Hcode & _ & Hrender).
  - vm_compute. reflexivity.
  - exact (conj Hcode Hrender).
Defined.

Lemma apply_no_changes_witness :
  change_count (core := Demo.core_of Demo.up_to_date)
    (events (CmdApply "." false)) = Some 0 ∧
  exit_code (core := Demo.core_of Demo.up_to_date) (CmdApply "." false)
    = 0%Z ∧
  existsb is_confirm
    (events (core := Demo.core_of Demo.up_to_date) (CmdApply "." false))
    = false ∧
  existsb is_mutation
    (events (core := Demo.core_of Demo.up_to_date) (CmdApply "." false))
    = false.
Proof.
  split; [vm_compute; reflexivity|].
  destruct (apply_no_changes (core := Demo.core_of Demo.up_to_date)
              "." false) as (Hcode & _ & Hconfirm & Hmutation).
  - vm_compute. reflexivity.
  - exact (conj Hcode (conj Hconfirm Hmutation)).
Defined.

(** The recorded state is unreadable. *)
Lemma apply_aborts_without_mutation_witness :
  aborted_before_apply (core := Demo.core_of Demo.unreadable_state)
    (events (CmdApply "." true)) = true ∧
  exit_code (core := Demo.core_of Demo.unreadable_state) (CmdApply "." true)
    = 1%Z ∧
  existsb is_push
    (events (core := Demo.core_of Demo.unreadable_state) (CmdApply "." true))
    = false.
Proof.
  split; [vm_compute; reflexivity|].
  destruct (apply_aborts_without_mutation
              (core := Demo.core_of Demo.unreadable_state) "." true)
    as (Hcode & _ & _ & Hpush).
  - vm_compute. reflexivity.
  - exact (conj Hcode Hpush).
Defined.

(** [plan.apply] raises after its first provider operation: Plan/Apply has
    begun, one resource was created, and no state is pushed. *)
Lemma apply_failure_not_pushed :
  let t :=
    events
      (core := Demo.core_of
                 (Demo.two_changes (Some (1, Demo.provider_failed)) true))
      (CmdApply "." true) in
  existsb is_plan_apply t = true ∧
  length (List.filter is_provider_call t) = 1 ∧
  apply_raised t = Some Demo.provider_failed ∧
  existsb is_push t = false.
Proof. vm_compute. repeat split. Qed.


Lemma apply_pushes_returned_state_witness :
  apply_raised
    (core := Demo.core_of
               (Demo.two_changes (Some (1, Demo.provider_failed)) true))
    (events (CmdApply "." true)) = Some Demo.provider_failed ∧
  existsb is_push
    (events
       (core := Demo.core_of
                  (Demo.two_changes (Some (1, Demo.provider_failed)) true))
       (CmdApply "." true)) = false.
Proof.
  split; [vm_compute; reflexivity|].
  apply (proj2 (apply_pushes_returned_state
                  (core := Demo.core_of
                     (Demo.two_changes (Some (1, Demo.provider_failed)) true))
                  "." true) Demo.provider_failed).
  vm_compute. reflexivity.
Defined.

(** The user declines. *)
Lemma confirmation_single_decision_point_witness :
  change_count (core := Demo.core_of (Demo.two_changes None false))
    (events (CmdApply "." false)) = Some 2 ∧
  existsb is_declined
    (events (core := Demo.core_of (Demo.two_changes None false))
       (CmdApply "." false)) = true ∧
  existsb is_mutation
    (events (core := Demo.core_of (Demo.two_changes None false))
       (CmdApply "." false)) = false.
Proof.
  split; [vm_compute; reflexivity|].
  split; [vm_compute; reflexivity|].
  destruct (confirmation_single_decision_point
              (core := Demo.core_of (Demo.two_changes None false))
              "." false 1) as (_ & _ & _ & _ & Hdeclined).
  - vm_compute. reflexivity.
  - apply Hdeclined. vm_compute. reflexivity.
Defined.

(** Two changes are planned and confirmed, [plan.apply] carries out one of
    them and returns: the report still says two. *)
Lemma apply_report_counts_plan_not_work :
  let t := events (core := Demo.one_of_two) (CmdApply "." true) in
  exit_code (core := Demo.one_of_two) (CmdApply "." true) = 0%Z ∧
  reported t = Some (2, 7%Z) ∧
  length (List.filter is_provider_call t) = 1 ∧
  applied_State t = Some {[ "dash" := "v2" ]} ∧
  desired_State t = Some {[ "dash" := "v2"; "board" := "v1" ]}.
Proof. vm_compute. repeat split. Qed.

(** Two changes, confirmed and applied. *)
Lemma apply_reports_planned_count_witness :
  reported (core := Demo.core_of (Demo.two_changes None true))
    (events (CmdApply "." false)) = Some (2, 7%Z) ∧
  change_count (core := Demo.core_of (Demo.two_changes None true))
    (events (CmdApply "." false)) = Some 2.
Proof.
  split; [vm_compute; reflexivity|].
  apply (apply_reports_planned_count
           (core := Demo.core_of (Demo.two_changes None true))
           "." false 2 7%Z).
  vm_compute. reflexivity.
Defined.

(** * Further properties of the commands *)

(** ** More facts on traces *)

Section MoreTraceFacts.
Context `{core : Core}.
Abbreviation Cfg := (Config Providers Evaluations Lookups StateConfig).

Lemma final_event_singleton (e : event) : final_event [e] = Some e.
Proof. reflexivity. Qed.

Lemma final_event_cons (x y : event) (t : trace) :
  final_event (x :: y :: t) = final_event (y :: t).
Proof. reflexivity. Qed.

Lemma final_event_app (t1 t2 : trace) (e : event) :
  final_event (t1 ++ e :: t2) = final_event (e :: t2).
Proof.
  unfold final_event. rewrite last_app.
  by destruct (last (e :: t2)) eqn:Hlast; [|apply last_None in Hlast].
Qed.

Lemma final_event_cons_app (x : event) (t1 t2 : trace) (e : event) :
  final_event (x :: t1 ++ e :: t2) = final_event (e :: t2).
Proof. by rewrite app_comm_cons, final_event_app. Qed.

Lemma first_raised_resolve_log (config : Cfg) items resources :
  observe raised (resolve_log config items) =
    match resolve_fold config items resources with
    | inl exc => Some exc
    | inr _ => None
    end.
Proof.
  revert resources.
  induction items as [|[key value] rest IH]; intros resources; cbn; [done|].
  destruct (Stencil_resolve _ _ _ _ _); cbn; [done|]. apply IH.
Qed.

Lemma count_raise_resolve_log (config : Cfg) items resources :
  length (List.filter is_raise (resolve_log config items)) =
    match resolve_fold config items resources with
    | inl _ => 1
    | inr _ => 0
    end.
Proof.
  revert resources.
  induction items as [|[key value] rest IH]; intros resources; cbn; [done|].
  destruct (Stencil_resolve _ _ _ _ _); cbn; [done|]. apply IH.
Qed.

Lemma after_raise_resolve_log (config : Cfg) items :
  after is_raise (resolve_log config items) = [].
Proof.
  induction items as [|[key value] rest IH]; cbn; [done|].
  by destruct (Stencil_resolve _ _ _ _ _).
Qed.

Lemma resolve_log_all_ok_calls (config : Cfg) items ms :
  resolutions config items = map inr ms →
  resolve_log config items = resolve_calls config items.
Proof.
  revert ms. induction items as [|[key value] rest IH]; intros [|m ms] Hres;
    cbn in *; try done.
  injection Hres as Hm Hrest. rewrite Hm. f_equal. by eapply IH.
Qed.

Lemma resolve_log_app_ok (config : Cfg) pre rest ms :
  resolutions config pre = map inr ms →
  resolve_log config (pre ++ rest) =
    resolve_calls config pre ++ resolve_log config rest.
Proof.
  revert ms. induction pre as [|[key value] pre IH]; intros [|m ms] Hres;
    cbn in *; try done.
  injection Hres as Hm Hrest. rewrite Hm. f_equal. by eapply IH.
Qed.

Lemma resolve_fold_app_ok (config : Cfg) pre rest ms resources :
  resolutions config pre = map inr ms →
  resolve_fold config (pre ++ rest) resources =
    resolve_fold config rest (merge_all resources ms).
Proof.
  revert ms resources.
  induction pre as [|[key value] pre IH]; intros [|m ms] resources Hres;
    cbn in *; try done.
  injection Hres as Hm Hrest. rewrite Hm. by apply IH.
Qed.

Lemma filter_resolve_log_all (config : Cfg) items :
  List.filter is_resolve (resolve_log config items) = resolve_log config items.
Proof.
  induction items as [|[key value] rest IH]; cbn; [done|].
  f_equal. by destruct (Stencil_resolve _ _ _ _ _).
Qed.

Lemma merge_all_dom (d : gmap ResourceID Resource) ms :
  dom (merge_all d ms) = dom d ∪ ⋃ (dom <$> ms).
Proof.
  revert d. induction ms as [|m ms IH]; intros d; cbn.
  - by rewrite (right_id_L ∅ (∪)).
  - unfold merge_all in IH. rewrite IH. unfold dict_update.
    rewrite dom_union_L, (comm_L (∪) (dom m) (dom d)).
    by rewrite (assoc_L (∪)).
Qed.

Lemma merge_all_lookup_origin (d : gmap ResourceID Resource) ms id r :
  merge_all d ms !! id = Some r →
  d !! id = Some r ∨ ∃ m, m ∈ ms ∧ m !! id = Some r.
Proof.
  revert d. induction ms as [|m ms IH]; intros d; cbn; [by left|].
  intros Hl. apply IH in Hl as [Hl|(m' & Hin & Hm')].
  - rewrite dict_update_lookup in Hl. destruct (m !! id) eqn:Hm.
    + right. exists m. split; [by left | congruence].
    + by left.
  - right. exists m'. split; [by right | done].
Qed.

Lemma prefix_append (p s : string) : String.prefix p (p +:+ s) = true.
Proof.
  induction p as [|a p IH].
  - by destruct s.
  - change (String.prefix (String a p) (String a (p +:+ s)) = true). cbn.
    destruct (Ascii.ascii_dec a a); [exact IH | done].
Qed.

Lemma terminal_ok_silent (running : bool) (t1 t2 : trace) :
  forallb is_silent t1 = true →
  terminal_ok running (t1 ++ t2) = terminal_ok running t2.
Proof.
  induction t1 as [|e t1 IH]; cbn; [done|].
  intros [He Ht1]%andb_prop. rewrite <- (IH Ht1).
  by destruct e.
Qed.

Lemma resolve_log_silent (config : Cfg) items :
  forallb is_silent (resolve_log config items) = true.
Proof.
  induction items as [|[key value] rest IH]; cbn; [done|].
  by destruct (Stencil_resolve _ _ _ _ _).
Qed.

Lemma ops_silent (ops : list (ProviderOp Resource)) :
  forallb is_silent (map ProviderCall ops) = true.
Proof. by induction ops. Qed.

End MoreTraceFacts.

Ltac trace_step' :=
  match goal with
  | |- context [(?a ++ ?b) ++ ?c] => rewrite <- (app_assoc a b c)
  | |- context [final_event [?e]] => rewrite (final_event_singleton e)
  | |- context [final_event (?x :: ?y :: ?t)] =>
      rewrite (final_event_cons x y t)
  | |- context [final_event (?x :: ?a ++ ?e :: ?b)] =>
      rewrite (final_event_cons_app x a b e)
  | |- context [final_event (?a ++ ?e :: ?b)] =>
      rewrite (final_event_app a b e)
  | H : resolve_fold ?c ?l ?r = _
    |- context [observe raised (resolve_log ?c ?l)] =>
      rewrite (first_raised_resolve_log c l r), H
  | H : resolve_fold ?c ?l ?r = _
    |- context [length (List.filter is_raise (resolve_log ?c ?l))] =>
      rewrite (count_raise_resolve_log c l r), H
  | |- context [after is_raise (resolve_log ?c ?l)] =>
      rewrite (after_raise_resolve_log c l)
  | |- context [List.filter is_resolve (resolve_log ?c ?l)] =>
      rewrite (filter_resolve_log_all c l)
  | |- context [length (?a ++ ?b)] => rewrite (List.length_app a b)
  | |- context [String.prefix ?p (?p +:+ ?s)] => rewrite (prefix_append p s)
  | |- context [terminal_ok ?r (resolve_log ?c ?l ++ ?b)] =>
      rewrite (terminal_ok_silent r (resolve_log c l) b)
        by apply resolve_log_silent
  | |- context [terminal_ok ?r (map ProviderCall ?o ++ ?b)] =>
      rewrite (terminal_ok_silent r (map ProviderCall o) b)
        by apply ops_silent
  end.

Ltac trace_simpl' := repeat first [trace_step' | progress cbn | trace_step].


(** ** Behaviour of the commands *)

Section Extras.
Context `{core : Core}.

(** X1.  [plan] is read-only: no run of it prompts, reads the clock,
    builds a Plan, runs Plan/Apply, performs a provider operation or pushes
    a state. *)
Theorem plan_is_read_only (config_dir : string) :
  let t := events (CmdPlan config_dir) in
  existsb is_confirm t = false ∧
  existsb is_Time t = false ∧
  existsb is_new_plan t = false ∧
  existsb is_mutation t = false.
Proof. run_main; trace_simpl; done. Qed.

(** X2.  When the diff has outcomes and rendering succeeds, [plan] exits
    with status 0 and what it prints after computing the outcomes is, in
    this order, the heading, the rendering [render] returned and the hint
    to run [gdbt apply]. *)
Theorem plan_reports_changes
    (config_dir : string) (n : nat) (r : Rendering) :
  let t := events (CmdPlan config_dir) in
  change_count t = Some (S n) →
  rendering_of t = Some r →
  exit_code (CmdPlan config_dir) = 0%Z ∧
  List.filter (fun e => negb (is_render e)) (after is_outcomes t) =
    [Print (Text (nl +:+ "[b]Planned changes:[/b]" +:+ nl));
     Print (Rendered r);
     Print (Text (nl +:+ "Run [bold green]gdbt apply[/] to apply these changes"
                     +:+ nl))].
Proof.
  unfold change_count, rendering_of. run_main; trace_simpl.
  all: try done.
  all: intros _; intros [= <-]; done.
Qed.

(** X3.  In every run of every command at most one call raises a domain
    error.  If one does, the command exits with status 1 and the last thing
    it does is to print that error's message in the error format.  If none
    does, no error line is printed and the status is 0, or 1 when the
    prompt was declined. *)
Theorem error_reported_last (cmd : command) :
  let t := events cmd in
  match first_raised t with
  | Some exc =>
      exit_code cmd = 1%Z ∧
      final_event t = Some (Print (error_text exc)) ∧
      length (List.filter is_raise t) = 1
  | None =>
      exit_code cmd = (if existsb is_declined t then 1 else 0)%Z ∧
      existsb is_error_print t = false
  end.
Proof.
  unfold first_raised, error_text. destruct cmd; run_main.
  all: trace_simpl'; done.
Qed.

(** X4.  The first domain error ends the work: after a call has raised, no
    further call into the core, prompt or clock reading occurs. *)
Theorem first_error_ends_the_run (cmd : command) :
  existsb is_core_call (after is_raise (events cmd)) = false.
Proof. destruct cmd; run_main; trace_simpl'; done. Qed.

(** X5.  In every run spinners are properly bracketed and alone on the
    terminal: a spinner is started only when none runs and is stopped
    whether its block returns or raises; no console print, prompt or
    error-stream message happens while a spinner runs; the run ends with no
    spinner running. *)
Theorem terminal_has_one_writer (cmd : command) :
  terminal_ok false (events cmd) = true.
Proof. destruct cmd; run_main; trace_simpl'; done. Qed.

(** X6.  If [plan] exits with status 1, then [apply] on the same inputs
    exits with status 1 for the same error, without prompting and without
    any mutation. *)
Theorem plan_failure_implies_apply_failure
    (config_dir : string) (auto_approve : bool) :
  let tp := events (CmdPlan config_dir) in
  let ta := events (CmdApply config_dir auto_approve) in
  exit_code (CmdPlan config_dir) = 1%Z →
  exit_code (CmdApply config_dir auto_approve) = 1%Z ∧
  first_raised ta = first_raised tp ∧
  existsb is_confirm ta = false ∧
  existsb is_mutation ta = false.
Proof. unfold first_raised. run_main; trace_simpl'; done. Qed.

(** X7.  When [plan] finds zero changes, [apply] on the same inputs does
    exactly what [plan] does (the same events in the same order) and exits
    with status 0. *)
Theorem apply_without_changes_is_plan
    (config_dir : string) (auto_approve : bool) :
  change_count (events (CmdPlan config_dir)) = Some 0 →
  events (CmdApply config_dir auto_approve) = events (CmdPlan config_dir) ∧
  exit_code (CmdApply config_dir auto_approve) = 0%Z.
Proof.
  unfold change_count. run_main; trace_simpl'.
  all: try (intros [= ?]); done.
Qed.

(** X8.  Passing [--auto-approve] is the same as answering yes: if the user
    would confirm, the two runs exit with the same status, make the same
    calls apart from the prompt, with the same results, and print the same
    report. *)
Theorem auto_approve_is_answering_yes (config_dir : string) :
  let ty := events (CmdApply config_dir true) in
  let tn := events (CmdApply config_dir false) in
  click_confirm "Apply?" = true →
  exit_code (CmdApply config_dir true) = exit_code (CmdApply config_dir false) ∧
  List.filter is_backend_call ty = List.filter is_backend_call tn ∧
  reported ty = reported tn.
Proof.
  unfold reported. run_main; trace_simpl'; done.
Qed.

(** X9.  What [apply] applies is what it showed: the Plan handed to
    [plan.apply] is the one built from the StateDiff that was computed,
    counted and rendered, with the same providers, and the rendering comes
    before Plan/Apply starts. *)
Theorem applied_plan_is_the_shown_diff
    (config_dir : string) (auto_approve : bool) (p : Plan) (ps : Providers) :
  let t := events (CmdApply config_dir auto_approve) in
  applied_plan t = Some (p, ps) →
  built_plan t = Some p ∧
  ∃ d, planned_diff t = Some d ∧
       computed_StateDiff t = Some d ∧
       counted_diff t = Some (d, ps) ∧
       rendered_diff t = Some (d, ps) ∧
       guarded is_render is_plan_apply t = true.
Proof.
  unfold applied_plan, built_plan, planned_diff, computed_StateDiff,
    counted_diff, rendered_diff.
  run_main; trace_simpl'; try done.
  all: intros [= <- <-]; split; [done|]; eexists; done.
Qed.

(** X10.  [apply] pushes the state with the state configuration and the
    providers it loaded the current state with, both taken from the loaded
    configuration. *)
Theorem state_pushed_where_it_was_loaded
    (config_dir : string) (auto_approve : bool)
    (st : StateConfig) (ps : Providers) :
  let t := events (CmdApply config_dir auto_approve) in
  pushed_to t = Some (st, ps) →
  loaded_from t = Some (st, ps) ∧
  ∃ config, loaded_config t = Some config ∧
            st = state config ∧ ps = providers config.
Proof.
  unfold pushed_to, loaded_from, loaded_config.
  run_main; trace_simpl'; try done.
  all: intros [= <- <-]; split; [done|]; eexists; done.
Qed.

(** X11.  The StateDiff is built from the loaded state as current and the
    State built from the resolved resources as desired, in this order; the
    desired State is built before the current one is loaded. *)
Theorem diff_is_current_against_desired
    (cmd : command) (current desired : State) :
  let t := events cmd in
  diff_inputs t = Some (current, desired) →
  current_State t = Some current ∧
  desired_State t = Some desired ∧
  guarded is_new_state
    (fun e => match e with LoadState _ _ _ => true | _ => false end) t = true.
Proof.
  unfold diff_inputs, current_State, desired_State.
  destruct cmd; run_main; trace_simpl'; try done.
  all: intros [= <- <-]; done.
Qed.

(** X12.  When the state push raises, [apply] exits with status 1 although
    [plan.apply] has run and returned: the closing report and the
    "Uploaded state" mark are not shown and the last thing printed is the
    push error. *)
Theorem push_failure_after_apply
    (config_dir : string) (auto_approve : bool) (exc : Error) :
  let t := events (CmdApply config_dir auto_approve) in
  push_raised t = Some exc →
  exit_code (CmdApply config_dir auto_approve) = 1%Z ∧
  is_Some (applied_State t) ∧
  existsb is_plan_apply t = true ∧
  reported t = None ∧
  existsb is_succeed t = false ∧
  final_event t = Some (Print (error_text exc)).
Proof.
  unfold push_raised, applied_State, reported, error_text.
  run_main; trace_simpl'; try done.
  all: intros [= <-]; repeat split; eauto.
Qed.

(** X13.  The closing report of [apply] is the last event of the run and
    is printed only after the applied State was pushed without error and
    the spinner was marked as succeeded, the mark coming after the push. *)
Theorem report_follows_successful_push
    (config_dir : string) (auto_approve : bool) (n : nat) (d : Z) :
  let t := events (CmdApply config_dir auto_approve) in
  reported t = Some (n, d) →
  final_event t = Some (Print (Done n d)) ∧
  push_raised t = None ∧
  is_Some (pushed_State t) ∧
  pushed_State t = applied_State t ∧
  existsb is_succeed t = true ∧
  guarded is_push is_succeed t = true.
Proof.
  unfold reported, push_raised, pushed_State, applied_State.
  run_main; trace_simpl'; try done.
  all: intros [= <- <-]; repeat split; eauto.
Qed.

End Extras.

(** ** The resolution loop inside the commands *)

Section Resolution.
Context `{core : Core}.
Abbreviation Cfg := (Config Providers Evaluations Lookups StateConfig).

(** X14.  When a stencil does not resolve, both commands stop there: the
    stencils before it were resolved in order, the ones after it are not
    resolved, no State is built from the resources resolved so far, the
    status is 1 and the stencil's error is printed last. *)
Theorem failed_stencil_aborts_the_run
    (config_dir : string) (auto_approve : bool) (config : Cfg)
    (pre post : list (string * Stencil)) (key : string) (value : Stencil)
    (ms : list (gmap ResourceID Resource)) (exc : Error) :
  gdbt_load_config config_dir = inr config →
  gdbt_load_resources config_dir = inr (pre ++ (key, value) :: post) →
  resolutions config pre = map inr ms →
  Stencil_resolve value key (providers config) (evaluations config)
    (lookups config) = inl exc →
  ∀ cmd, cmd = CmdPlan config_dir ∨ cmd = CmdApply config_dir auto_approve →
    List.filter is_resolve (events cmd) =
      resolve_calls config pre ++
      [Resolve value key (providers config) (evaluations config)
         (lookups config) (inl exc)] ∧
    existsb is_new_state (events cmd) = false ∧
    exit_code cmd = 1%Z ∧
    final_event (events cmd) = Some (Print (error_text exc)).
Proof.
  intros Hconfig Hitems Hpre Hvalue cmd Hcmd.
  assert (resolve_log config (pre ++ (key, value) :: post) =
            resolve_calls config pre ++
            [Resolve value key (providers config) (evaluations config)
               (lookups config) (inl exc)]) as Hlog.
  { rewrite (resolve_log_app_ok _ _ _ ms Hpre). cbn. by rewrite Hvalue. }
  assert (resolve_fold config (pre ++ (key, value) :: post) ∅ = inl exc)
    as Hfold.
  { rewrite (resolve_fold_app_ok _ _ _ ms ∅ Hpre). cbn. by rewrite Hvalue. }
  revert Hconfig Hitems Hlog Hfold. unfold error_text.
  destruct Hcmd as [-> | ->]; run_main; trace_simpl'.
  all: try (intros [=]; fail).
  all: intros [= <-]; try (intros [=]; fail).
  all: intros [= <-]; intros Hlog Hfold.
  all: rewrite Hfold in *; try done.
  all: simplify_eq; by rewrite app_nil_r.
Qed.

(** X15.  When every stencil resolves, both commands resolve each stencil
    exactly once, in the order of [stencils.items()], each with its own key
    and with the providers, evaluations and lookups of the configuration. *)
Theorem every_stencil_resolved_once_in_order
    (config_dir : string) (auto_approve : bool) (config : Cfg)
    (items : list (string * Stencil)) (ms : list (gmap ResourceID Resource)) :
  gdbt_load_config config_dir = inr config →
  gdbt_load_resources config_dir = inr items →
  resolutions config items = map inr ms →
  List.filter is_resolve (events (CmdPlan config_dir)) =
    resolve_calls config items ∧
  List.filter is_resolve (events (CmdApply config_dir auto_approve)) =
    resolve_calls config items.
Proof.
  intros Hconfig Hitems Hres.
  pose proof (resolve_log_all_ok_calls config items ms Hres) as Hlog.
  split; revert Hconfig Hitems Hlog; run_main; trace_simpl'.
  all: try (intros [=]; fail).
  all: intros [= <-]; try (intros [=]; fail).
  all: intros [= <-]; intros Hlog; by rewrite ?app_nil_r.
Qed.

(** X16.  When every stencil resolves, the aggregated dictionary has
    exactly the ids the stencils produced, and every resource in it is one
    some stencil produced for that id. *)
Theorem aggregation_keeps_every_id
    (config : Cfg) (items : list (string * Stencil))
    (ms : list (gmap ResourceID Resource)) :
  resolutions config items = map inr ms →
  ∃ m, fst (resolve_stencils config items ∅ start) = Ok m ∧
       dom m = ⋃ (dom <$> ms) ∧
       ∀ id r, m !! id = Some r → ∃ m', m' ∈ ms ∧ m' !! id = Some r.
Proof.
  intros Hres. exists (merge_all ∅ ms). split; [|split].
  - by rewrite resolve_stencils_run, (resolve_fold_all_ok _ _ ms).
  - by rewrite merge_all_dom, dom_empty_L, (left_id_L ∅ (∪)).
  - intros id r Hl. by apply merge_all_lookup_origin in Hl as [Hl|Hl].
Qed.

(** X17.  When the stencils produce pairwise disjoint ids, the aggregation
    loses nothing: every stencil's mapping is contained in the aggregated
    dictionary. *)
Theorem disjoint_stencils_merge_losslessly
    (config : Cfg) (items : list (string * Stencil))
    (ms : list (gmap ResourceID Resource)) :
  resolutions config items = map inr ms →
  (∀ ms1 m1 ms2 m2 ms3,
     ms = ms1 ++ m1 :: ms2 ++ m2 :: ms3 → m1 ##ₘ m2) →
  ∃ m, fst (resolve_stencils config items ∅ start) = Ok m ∧
       ∀ m', m' ∈ ms → m' ⊆ m.
Proof.
  intros Hres Hdisj. exists (merge_all ∅ ms). split.
  - by rewrite resolve_stencils_run, (resolve_fold_all_ok _ _ ms).
  - intros m' Hin. apply map_subseteq_spec. intros id r Hm'.
    apply list_elem_of_split in Hin as (ms1 & ms2 & ->).
    apply merge_all_last; [done|].
    apply Forall_forall. intros m2 Hin2.
    apply list_elem_of_split in Hin2 as (ms2a & ms2b & ->).
    specialize (Hdisj ms1 m' ms2a m2 ms2b eq_refl).
    by eapply map_disjoint_Some_l.
Qed.

End Resolution.

(** ** The further properties on the in-memory core *)

Lemma plan_reports_changes_witness :
  change_count (core := Demo.core_of (Demo.two_changes None true))
    (events (CmdPlan ".")) = Some 2 ∧
  exit_code (core := Demo.core_of (Demo.two_changes None true))
    (CmdPlan ".") = 0%Z.
Proof.
  split; [vm_compute; reflexivity|].
  destruct (rendering_of (core := Demo.core_of (Demo.two_changes None true))
              (events (CmdPlan "."))) as [r|] eqn:Hr.
  - apply (plan_reports_changes
             (core := Demo.core_of (Demo.two_changes None true)) "." 1 r).
    + vm_compute. reflexivity.
    + exact Hr.
  - vm_compute in Hr. discriminate Hr.
Defined.

Lemma plan_failure_implies_apply_failure_witness :
  exit_code (core := Demo.core_of Demo.unreadable_state) (CmdPlan ".")
    = 1%Z ∧
  exit_code (core := Demo.core_of Demo.unreadable_state) (CmdApply "." true)
    = 1%Z.
Proof.
  split; [vm_compute; reflexivity|].
  apply (plan_failure_implies_apply_failure
           (core := Demo.core_of Demo.unreadable_state) "." true).
  vm_compute. reflexivity.
Defined.

Lemma apply_without_changes_is_plan_witness :
  change_count (core := Demo.core_of Demo.up_to_date)
    (events (CmdPlan ".")) = Some 0 ∧
  events (core := Demo.core_of Demo.up_to_date) (CmdApply "." false) =
  events (core := Demo.core_of Demo.up_to_date) (CmdPlan ".").
Proof.
  split; [vm_compute; reflexivity|].
  apply (apply_without_changes_is_plan
           (core := Demo.core_of Demo.up_to_date) "." false).
  vm_compute. reflexivity.
Defined.

Lemma auto_approve_is_answering_yes_witness :
  @click_confirm (Demo.core_of (Demo.two_changes None true)) "Apply?"
    = true ∧
  exit_code (core := Demo.core_of (Demo.two_changes None true))
    (CmdApply "." true) =
  exit_code (core := Demo.core_of (Demo.two_changes None true))
    (CmdApply "." false).
Proof.
  split; [reflexivity|].
  apply (auto_approve_is_answering_yes
           (core := Demo.core_of (Demo.two_changes None true)) ".").
  reflexivity.
Defined.

Lemma applied_plan_is_the_shown_diff_witness :
  ∃ p ps,
    applied_plan (core := Demo.core_of (Demo.two_changes None true))
      (events (CmdApply "." true)) = Some (p, ps) ∧
    built_plan (core := Demo.core_of (Demo.two_changes None true))
      (events (CmdApply "." true)) = Some p.
Proof.
  destruct (applied_plan (core := Demo.core_of (Demo.two_changes None true))
              (events (CmdApply "." true))) as [[p ps]|] eqn:Happlied.
  - exists p, ps. split; [reflexivity|].
    apply (applied_plan_is_the_shown_diff
             (core := Demo.core_of (Demo.two_changes None true))
             "." true p ps Happlied).
  - vm_compute in Happlied. discriminate Happlied.
Defined.

Lemma state_pushed_where_it_was_loaded_witness :
  pushed_to (core := Demo.core_of (Demo.two_changes None true))
    (events (CmdApply "." true)) = Some (tt, tt) ∧
  loaded_from (core := Demo.core_of (Demo.two_changes None true))
    (events (CmdApply "." true)) = Some (tt, tt).
Proof.
  split; [vm_compute; reflexivity|].
  apply (state_pushed_where_it_was_loaded
           (core := Demo.core_of (Demo.two_changes None true))
           "." true tt tt).
  vm_compute. reflexivity.
Defined.

Lemma diff_is_current_against_desired_witness :
  ∃ current desired,
    diff_inputs (core := Demo.core_of (Demo.two_changes None true))
      (events (CmdPlan ".")) = Some (current, desired) ∧
    current_State (core := Demo.core_of (Demo.two_changes None true))
      (events (CmdPlan ".")) = Some current.
Proof.
  destruct (diff_inputs (core := Demo.core_of (Demo.two_changes None true))
              (events (CmdPlan "."))) as [[current desired]|] eqn:Hdiff.
  - exists current, desired. split; [reflexivity|].
    apply (diff_is_current_against_desired
             (core := Demo.core_of (Demo.two_changes None true))
             (CmdPlan ".") current desired Hdiff).
  - vm_compute in Hdiff. discriminate Hdiff.
Defined.

Lemma push_failure_after_apply_witness :
  push_raised (core := Demo.core_of Demo.push_fails)
    (events (CmdApply "." true)) =
    Some (Errors.mkError Errors.StateError "read-only backend") ∧
  exit_code (core := Demo.core_of Demo.push_fails) (CmdApply "." true)
    = 1%Z.
Proof.
  split; [vm_compute; reflexivity|].
  apply (push_failure_after_apply (core := Demo.core_of Demo.push_fails)
           "." true (Errors.mkError Errors.StateError "read-only backend")).
  vm_compute. reflexivity.
Defined.

Lemma report_follows_successful_push_witness :
  reported (core := Demo.core_of (Demo.two_changes None true))
    (events (CmdApply "." true)) = Some (2, 7%Z) ∧
  final_event (core := Demo.core_of (Demo.two_changes None true))
    (events (CmdApply "." true)) = Some (Print (Done 2 7)).
Proof.
  split; [vm_compute; reflexivity|].
  apply (report_follows_successful_push
           (core := Demo.core_of (Demo.two_changes None true))
           "." true 2 7%Z).
  vm_compute. reflexivity.
Defined.

Lemma failed_stencil_aborts_the_run_witness :
  exit_code (core := Demo.core_of Demo.broken_stencil) (CmdPlan ".") = 1%Z ∧
  existsb is_new_state
    (events (core := Demo.core_of Demo.broken_stencil) (CmdApply "." true))
    = false.
Proof.
  pose proof (failed_stencil_aborts_the_run
                (core := Demo.core_of Demo.broken_stencil)
                "." true (mkConfig tt tt tt tt)
                [("a", inr {[ "dash" := "v2" ]})]
                [("c", inr {[ "board" := "v1" ]})]
                "b"
                (inl (Errors.mkError Errors.ResolutionError
                        "undefined lookup"))
                [{[ "dash" := "v2" ]}]
                (Errors.mkError Errors.ResolutionError "undefined lookup")
                eq_refl eq_refl eq_refl eq_refl) as Hrun.
  split.
  - apply (Hrun (CmdPlan ".")). by left.
  - apply (Hrun (CmdApply "." true)). by right.
Defined.

Lemma every_stencil_resolved_once_in_order_witness :
  length (List.filter is_resolve
            (events (core := Demo.core_of (Demo.two_changes None true))
               (CmdPlan "."))) = 2.
Proof.
  rewrite (proj1 (every_stencil_resolved_once_in_order
                    (core := Demo.core_of (Demo.two_changes None true))
                    "." true (mkConfig tt tt tt tt)
                    (Demo.stencils (Demo.two_changes None true))
                    [{[ "dash" := "v2" ]}; {[ "board" := "v1" ]}]
                    eq_refl eq_refl eq_refl)).
  reflexivity.
Defined.

Lemma aggregation_keeps_every_id_witness :
  ∃ m : gmap string string,
    fst (resolve_stencils (core := Demo.core_of Demo.colliding)
           (mkConfig tt tt tt tt) (Demo.stencils Demo.colliding) ∅ start)
      = Ok m ∧
    dom m =
      ⋃ (dom <$> ([{[ "dash" := "from a" ]}; {[ "dash" := "from b" ]}]
                    : list (gmap string string))).
Proof.
  destruct (aggregation_keeps_every_id
              (core := Demo.core_of Demo.colliding)
              (mkConfig tt tt tt tt) (Demo.stencils Demo.colliding)
              [{[ "dash" := "from a" ]}; {[ "dash" := "from b" ]}]
              eq_refl) as (m & Hm & Hdom & _).
  exists m. split; [exact Hm | exact Hdom].
Defined.

Lemma disjoint_stencils_merge_losslessly_witness :
  ∃ m : gmap string string,
    fst (resolve_stencils
           (core := Demo.core_of (Demo.two_changes None true))
           (mkConfig tt tt tt tt)
           (Demo.stencils (Demo.two_changes None true)) ∅ start) = Ok m ∧
    m !! "dash" = Some "v2" ∧ m !! "board" = Some "v1".
Proof.
  destruct (disjoint_stencils_merge_losslessly
              (core := Demo.core_of (Demo.two_changes None true))
              (mkConfig tt tt tt tt)
              (Demo.stencils (Demo.two_changes None true))
              [{[ "dash" := "v2" ]}; {[ "board" := "v1" ]}]
              eq_refl) as (m & Hm & Hsub).
  - intros ms1 m1 ms2 m2 ms3 Hsplit.
    destruct ms1 as [|a ms1]; [|destruct ms1 as [|b ms1]];
      [|destruct ms2; discriminate Hsplit
       |destruct ms1, ms2; discriminate Hsplit].
    destruct ms2 as [|c ms2]; [|destruct ms2; discriminate Hsplit].
    injection Hsplit as <- <- _.
    apply map_disjoint_singleton_l. apply lookup_singleton_ne. discriminate.
  - exists m. split; [exact Hm|]. split.
    + apply (lookup_weaken {[ "dash" := "v2" ]}).
      * apply lookup_singleton_eq.
      * apply Hsub. apply list_elem_of_here.
    + apply (lookup_weaken {[ "board" := "v1" ]}).
      * apply lookup_singleton_eq.
      * apply Hsub. apply list_elem_of_further, list_elem_of_here.
Defined.
